(** * testtool_ex.py: the ModelBuilder export, as a program over arcpy

    The script is a straight line of calls into the geoprocessing library:
    two guarded deletions, a buffer and a clip.  It is embedded as a tree
    of library calls; a run interprets that tree against a library, given
    as a handler over an arbitrary world, and records every call with the
    world it was issued in and the reply it got. *)

From stdpp Require Import gmap strings list fin_maps.

(** ** The part of arcpy the script uses *)

Module arcpy.

(** The four geoprocessing operations, with the positional arguments of
    the library. *)
Inductive call : Type :=
| Exists (dataset : string)
| Delete_management (in_data data_type : string)
| Buffer_analysis (in_features out_feature_class buffer_distance_or_field
                   line_side line_end_type dissolve_option dissolve_field
                   method : string)
| Clip_analysis (in_features clip_features out_feature_class
                 cluster_tolerance : string).

(** What a call hands back: [Exists] a boolean; the tools a result
    object, which the script drops. *)
Definition answer (c : call) : Type :=
  match c with
  | Exists _ => bool
  | _ => unit
  end.

(** [GetParameterAsText(index)]: the text of the tool's positional
    parameter, the empty string when none is supplied.  It reads the
    parameters the tool was started with and leaves the geodatabase
    alone, so it is a function of those parameters and not one of the
    operations above. *)
Definition GetParameterAsText (params : list string) (index : nat) : string :=
  nth index params "".

End arcpy.

(** ** Programs: trees of library calls *)

Inductive prog (A : Type) : Type :=
| Ret (a : A)
| Call (c : arcpy.call) (k : arcpy.answer c → prog A).
Arguments Ret {A} a.
Arguments Call {A} c k.

Fixpoint bind {A B : Type} (p : prog A) (f : A → prog B) : prog B :=
  match p with
  | Ret a => f a
  | Call c k => Call c (λ x, bind (k x) f)
  end.

Definition call (c : arcpy.call) : prog (arcpy.answer c) := Call c Ret.

#[global] Instance prog_ret : MRet prog := @Ret.
#[global] Instance prog_bind : MBind prog := λ A B f p, bind p f.

(** ** The script *)

(* Local variables: *)
Definition tracts : string := "tabletesting.gdb/tracts".
Definition major_roads : string := "tabletesting.gdb/major_roads".
Definition major_roads_Buffer : string := "tabletesting.gdb/major_roads_Buffer".
Definition tracts_Clip : string := "tabletesting.gdb/tracts_Clip".

Definition Delete_succeeded : string := "false".
Definition Delete_succeeded__2_ : string := "false".

(** The module body.  An [if] without [else] falls through to the next
    statement. *)
Definition script (params : list string) : prog unit :=
  let inputdata := arcpy.GetParameterAsText params 0 in
  b ← call (arcpy.Exists major_roads_Buffer);
  (if b : bool
   then call (arcpy.Delete_management major_roads_Buffer "FeatureClass")
   else mret tt);;
  b2 ← call (arcpy.Exists tracts_Clip);
  (if b2 : bool
   then call (arcpy.Delete_management tracts_Clip "FeatureClass")
   else mret tt);;
  call (arcpy.Buffer_analysis major_roads major_roads_Buffer
          (inputdata +:+ " Miles") "FULL" "ROUND" "ALL" "" "PLANAR");;
  call (arcpy.Clip_analysis tracts major_roads_Buffer tracts_Clip "").

(** ** Libraries and runs *)

(** A call either returns or raises. *)
Inductive reply (E A : Type) : Type :=
| Returned (a : A)
| Raised (e : E).
Arguments Returned {E A} a.
Arguments Raised {E A} e.

(** A library: its errors, the world it acts on (the geodatabase and
    whatever else it keeps), and what each call does to that world. *)
Record library : Type := Library {
  exn : Type;
  world : Type;
  handle : ∀ c : arcpy.call, world → reply exn (arcpy.answer c) * world
}.

(** One call as seen from the script: what was issued and what came back. *)
Record event (E : Type) : Type := Event {
  issued : arcpy.call;
  got : reply E (arcpy.answer issued)
}.
Arguments Event {E} issued got.
Arguments issued {E} e.
Arguments got {E} e.

Definition returned {E : Type} (c : arcpy.call) (a : arcpy.answer c) : event E :=
  Event c (Returned a).
Definition raised {E : Type} (c : arcpy.call) (e : E) : event E :=
  Event c (Raised e).

Definition failure {E : Type} (ev : event E) : option E :=
  match got ev with
  | Returned _ => None
  | Raised e => Some e
  end.

(** The result of a run: how it ended, the world it left, and the calls
    it made, oldest first, each with the world it was issued in. *)
Record run_result (E W A : Type) : Type := RunResult {
  outcome : reply E A;
  final : W;
  trace : list (W * event E)
}.
Arguments RunResult {E W A} outcome final trace.
Arguments outcome {E W A} r.
Arguments final {E W A} r.
Arguments trace {E W A} r.

Definition events {E W A : Type} (r : run_result E W A) : list (event E) :=
  (trace r).*2.

Definition calls {E W A : Type} (r : run_result E W A) : list arcpy.call :=
  issued <$> events r.

(** Python's semantics of a sequence of statements: a call that raises
    ends the run with that exception; nothing after it is executed. *)
Fixpoint run (L : library) {A : Type} (p : prog A) (w : world L)
  : run_result (exn L) (world L) A :=
  match p with
  | Ret a => RunResult (Returned a) w []
  | Call c k =>
      match handle L c w with
      | (Returned x, w') =>
          let r := run L (k x) w' in
          RunResult (outcome r) (final r) ((w, returned c x) :: trace r)
      | (Raised e, w') => RunResult (Raised e) w' [(w, raised c e)]
      end
  end.

(** ** What the geodatabase operations mean

    The library is external; the claims about stored data are settled
    against its contract.  A store model reads the geodatabase out of the
    library's world as a finite map from identifiers to datasets, and
    names the geometry the two tools compute. *)

Record store_model (L : library) : Type := StoreModel {
  dataset : Type;
  point : Type;
  gdb : world L → gmap string dataset;
  (* input, then distance, side, end type, dissolve option, dissolve
     field, method *)
  buffer_geom : dataset → string → string → string → string → string → string → dataset;
  (* input, clip features, cluster tolerance *)
  clip_geom : dataset → dataset → string → dataset;
  covers : dataset → point → Prop
}.
Arguments dataset {L} M : rename.
Arguments point {L} M : rename.
Arguments gdb {L} M w : rename.
Arguments buffer_geom {L} M : rename.
Arguments clip_geom {L} M : rename.
Arguments covers {L} M : rename.

(** The identifier a call deletes or creates. *)
Definition target (c : arcpy.call) : option string :=
  match c with
  | arcpy.Exists _ => None
  | arcpy.Delete_management in_data _ => Some in_data
  | arcpy.Buffer_analysis _ out _ _ _ _ _ _ => Some out
  | arcpy.Clip_analysis _ _ out _ => Some out
  end.

(** Every identifier a call names. *)
Definition identifiers (c : arcpy.call) : list string :=
  match c with
  | arcpy.Exists p => [p]
  | arcpy.Delete_management in_data _ => [in_data]
  | arcpy.Buffer_analysis inp out _ _ _ _ _ _ => [inp; out]
  | arcpy.Clip_analysis inp clip out _ => [inp; clip; out]
  end.

Record contract {L : library} (M : store_model L) : Prop := Contract {
  (* a call, whether it returns or raises, leaves every dataset other
     than its target as it was *)
  frame : ∀ c w p,
    target c ≠ Some p → gdb M (handle L c w).2 !! p = gdb M w !! p;
  (* the existence check tells whether the dataset is there *)
  Exists_answer : ∀ p w b w',
    handle L (arcpy.Exists p) w = (Returned b, w') →
    b = bool_decide (is_Some (gdb M w !! p));
  (* a delete that returns has removed the dataset *)
  Delete_removes : ∀ p ty w u w',
    handle L (arcpy.Delete_management p ty) w = (Returned u, w') →
    gdb M w' !! p = None;
  (* a buffer that returns has read its input and stored its buffer *)
  Buffer_creates : ∀ inp out dist side ends dopt dfield meth w u w',
    handle L (arcpy.Buffer_analysis inp out dist side ends dopt dfield meth) w
      = (Returned u, w') →
    ∃ d, gdb M w !! inp = Some d ∧
         gdb M w' !! out = Some (buffer_geom M d dist side ends dopt dfield meth);
  (* a clip that returns has read both inputs and stored the clip *)
  Clip_creates : ∀ inp clip out tol w u w',
    handle L (arcpy.Clip_analysis inp clip out tol) w = (Returned u, w') →
    ∃ a b, gdb M w !! inp = Some a ∧ gdb M w !! clip = Some b ∧
           gdb M w' !! out = Some (clip_geom M a b tol);
  (* a clip keeps only what lies in the input and in the clip features *)
  clip_within : ∀ a b tol x,
    covers M (clip_geom M a b tol) x → covers M a x ∧ covers M b x
}.

(** ** The sequence the script is meant to issue *)

Definition buffer_call (params : list string) : arcpy.call :=
  arcpy.Buffer_analysis major_roads major_roads_Buffer
    (arcpy.GetParameterAsText params 0 +:+ " Miles")
    "FULL" "ROUND" "ALL" "" "PLANAR".

Definition clip_call : arcpy.call :=
  arcpy.Clip_analysis tracts major_roads_Buffer tracts_Clip "".

(** Removing the dataset at [p] if one exists: the check, and the delete
    when the check said yes. *)
Definition removal {E : Type} (p : string) (present : bool) : list (event E) :=
  returned (arcpy.Exists p) present ::
  (if present then [returned (arcpy.Delete_management p "FeatureClass") tt] else []).

Definition sequence {E : Type} (params : list string) (b1 b2 : bool)
  : list (event E) :=
  removal major_roads_Buffer b1 ++ removal tracts_Clip b2 ++
  [returned (buffer_call params) tt; returned clip_call tt].

(** A run that issues the whole sequence. *)
Definition performs_whole_sequence (L : library) (params : list string)
    (w : world L) : Prop :=
  ∃ b1 b2, events (run L (script params) w) = sequence params b1 b2.

(** The buffer of the roads at the supplied distance, as the library
    computes it. *)
Definition buffered {L : library} (M : store_model L) (params : list string)
    (rd : dataset M) : dataset M :=
  buffer_geom M rd (arcpy.GetParameterAsText params 0 +:+ " Miles")
    "FULL" "ROUND" "ALL" "" "PLANAR".

(** Running twice in succession leaves the same two outputs. *)
Definition rerun_equivalent {L : library} (M : store_model L)
    (params : list string) (w : world L) : Prop :=
  let r1 := run L (script params) w in
  let r2 := run L (script params) (final r1) in
  gdb M (final r2) !! major_roads_Buffer = gdb M (final r1) !! major_roads_Buffer ∧
  gdb M (final r2) !! tracts_Clip = gdb M (final r1) !! tracts_Clip.

(** ** Reading a trace *)

Definition is_buffer (c : arcpy.call) : bool :=
  match c with
  | arcpy.Buffer_analysis _ _ _ _ _ _ _ _ => true
  | _ => false
  end.

Definition is_clip (c : arcpy.call) : bool :=
  match c with
  | arcpy.Clip_analysis _ _ _ _ => true
  | _ => false
  end.

(** The identifier a call creates. *)
Definition creates (c : arcpy.call) : option string :=
  match c with
  | arcpy.Buffer_analysis _ out _ _ _ _ _ _ => Some out
  | arcpy.Clip_analysis _ _ out _ => Some out
  | _ => None
  end.

(** The distance expression of a buffer call. *)
Definition distance (c : arcpy.call) : option string :=
  match c with
  | arcpy.Buffer_analysis _ _ dist _ _ _ _ _ => Some dist
  | _ => None
  end.

(** The distance expressions a run has passed to the buffer operation. *)
Definition buffer_distances {E W A : Type} (r : run_result E W A) : list string :=
  omap distance (calls r).

(** A call with the distance expression blanked out: everything about it
    except that argument. *)
Definition erase_distance (c : arcpy.call) : arcpy.call :=
  match c with
  | arcpy.Buffer_analysis inp out _ side ends dopt dfield meth =>
      arcpy.Buffer_analysis inp out "" side ends dopt dfield meth
  | _ => c
  end.

(** The identifiers a run has checked, read, deleted or created. *)
Definition touched {E W A : Type} (r : run_result E W A) : list string :=
  calls r ≫= identifiers.

Definition has_returned {E : Type} (ev : event E) : bool :=
  match got ev with
  | Returned _ => true
  | Raised _ => false
  end.

(** Whether the run issued a buffer call that returned. *)
Definition buffer_returned {E W A : Type} (r : run_result E W A) : bool :=
  existsb (λ ev, is_buffer (issued ev) && has_returned ev) (events r).

(** The parameter is confined to the distance expression: two runs name
    the same identifiers and issue the same calls, that expression apart. *)
Definition parameter_confined (L : library) (w : world L)
    (params1 params2 : list string) : Prop :=
  let r1 := run L (script params1) w in
  let r2 := run L (script params2) w in
  (∀ p, p ∈ touched r1 ↔ p ∈ touched r2) ∧
  erase_distance <$> calls r1 = erase_distance <$> calls r2.

(** The worlds a run went through: the one before each call, and the last. *)
Definition worlds {E W A : Type} (r : run_result E W A) : list W :=
  (trace r).*1 ++ [final r].

(** ** A reference library

    A small executable library honouring the contract, on a line instead
    of a plane: a stored feature class is a list of positions, a derived
    one remembers the tool and the arguments that made it. *)

Module reference.

Inductive features : Type :=
| Stored (cells : list Z)
| Buffered (src : features)
           (dist side ends dissolve_option dissolve_field method : string)
| Clipped (src clip : features) (tolerance : string).

Definition digit (a : Ascii.ascii) : option N :=
  let n := Ascii.N_of_ascii a in
  if bool_decide (48 ≤ n ≤ 57)%N then Some (n - 48)%N else None.

Fixpoint number (s : string) (acc : option N) : option N * string :=
  match s with
  | String a s' =>
      match digit a with
      | Some d => number s' (Some (10 * default 0 acc + d))%N
      | None => (acc, s)
      end
  | EmptyString => (acc, s)
  end.

(** A linear unit expression the library accepts: digits, then the unit. *)
Definition miles (expr : string) : option N :=
  match number expr None with
  | (Some n, unit_name) => if String.eqb unit_name " Miles" then Some n else None
  | (None, _) => None
  end.

Fixpoint covers (d : features) (x : Z) : Prop :=
  match d with
  | Stored cells => x ∈ cells
  | Buffered src dist _ _ _ _ _ =>
      ∃ y, covers src y ∧ (Z.abs (x - y) ≤ Z.of_N (default 0%N (miles dist)))%Z
  | Clipped src clip _ => covers src x ∧ covers clip x
  end.

(** The geodatabase: its feature classes by identifier, at most one
    entry each. *)
Definition store : Type := list (string * features).

Fixpoint get (p : string) (g : store) : option features :=
  match g with
  | [] => None
  | (k, d) :: g' => if String.eqb k p then Some d else get p g'
  end.

Fixpoint remove (p : string) (g : store) : store :=
  match g with
  | [] => []
  | (k, d) :: g' => if String.eqb k p then remove p g' else (k, d) :: remove p g'
  end.

Definition put (p : string) (d : features) (g : store) : store :=
  (p, d) :: remove p g.

Definition handle (c : arcpy.call) (g : store)
  : reply string (arcpy.answer c) * store :=
  match c as c' return reply string (arcpy.answer c') * store with
  | arcpy.Exists p =>
      (Returned (match get p g with Some _ => true | None => false end), g)
  | arcpy.Delete_management p _ =>
      match get p g with
      | Some _ => (Returned tt, remove p g)
      | None => (Raised "ERROR 000732: dataset does not exist", g)
      end
  | arcpy.Buffer_analysis inp out dist side ends dopt dfield meth =>
      match get inp g, miles dist with
      | Some d, Some _ =>
          (Returned tt, put out (Buffered d dist side ends dopt dfield meth) g)
      | None, _ => (Raised "ERROR 000732: input features do not exist", g)
      | _, None => (Raised "ERROR 000622: invalid linear unit", g)
      end
  | arcpy.Clip_analysis inp clip out tol =>
      match get inp g, get clip g with
      | Some a, Some b => (Returned tt, put out (Clipped a b tol) g)
      | _, _ => (Raised "ERROR 000732: input features do not exist", g)
      end
  end.

Definition lib : library := Library string store handle.

Definition model : store_model lib :=
  StoreModel lib features Z list_to_map Buffered Clipped covers.

(** The same library in a session that keeps a schema lock on what a
    clip has written: the geodatabase comes with the identifiers under
    lock, and deleting one of them fails. *)
Definition session : Type := store * list string.

Definition is_locked (p : string) (s : session) : bool :=
  existsb (String.eqb p) s.2.

Definition handle_locking (c : arcpy.call) (s : session)
  : reply string (arcpy.answer c) * session :=
  match c as c' return reply string (arcpy.answer c') * session with
  | arcpy.Exists p =>
      let r := handle (arcpy.Exists p) s.1 in (r.1, (r.2, s.2))
  | arcpy.Delete_management p ty =>
      if is_locked p s
      then (Raised "ERROR 000464: cannot get exclusive schema lock", s)
      else let r := handle (arcpy.Delete_management p ty) s.1 in (r.1, (r.2, s.2))
  | arcpy.Buffer_analysis inp out dist side ends dopt dfield meth =>
      let r := handle (arcpy.Buffer_analysis inp out dist side ends dopt dfield meth) s.1 in
      (r.1, (r.2, s.2))
  | arcpy.Clip_analysis inp clip out tol =>
      let r := handle (arcpy.Clip_analysis inp clip out tol) s.1 in
      (r.1, (r.2, match r.1 with Returned _ => out :: s.2 | Raised _ => s.2 end))
  end.

Definition locking : library := Library string session handle_locking.

Definition locking_model : store_model locking :=
  StoreModel locking features Z (λ s, list_to_map s.1) Buffered Clipped covers.

(** A geodatabase holding the two input feature classes only, and one
    that also holds outputs of an earlier run. *)
Definition fresh : store :=
  [(tracts, Stored [1; 2; 3; 9]%Z); (major_roads, Stored [4]%Z)].

Definition stale : store :=
  (major_roads_Buffer, Stored [0]%Z) :: (tracts_Clip, Stored [7]%Z) :: fresh.

End reference.

(** ** Proof steps shared by the theorems *)

(** Runs the script symbolically: one case per reply of the library. *)
Ltac step :=
  match goal with
  | |- context [handle ?L ?c ?w] =>
      let H := fresh "Hcall" in
      destruct (handle L c w) as [[[]|?] ?] eqn:H; cbn
  end.

Ltac run_script := unfold script; cbn; repeat step.

(** Splits a goal about the failing run at the [k]-th step of the
    sequence. *)
Ltac cut_after k :=
  right;
  lazymatch goal with
  | |- ∃ done c a rest e, _ ∧ ?s = _ ∧ _ => exists (take k s)
  end;
  eexists _, _, _, _; cbn; split_and!; reflexivity.

Ltac shape :=
  solve [ left; split; reflexivity
        | cut_after 0 | cut_after 1 | cut_after 2
        | cut_after 3 | cut_after 4 | cut_after 5 ].

Ltac distinct := first [ cbv; discriminate | cbn; congruence ].

(** ** The reference library honours the contract *)

Lemma reference_lookup (g : reference.store) (p : string) :
  (list_to_map g : gmap string reference.features) !! p = reference.get p g.
Proof.
  induction g as [|[k d] g IH]; [done|]. cbn.
  destruct (String.eqb_spec k p) as [->|Hne].
  - apply lookup_insert_eq.
  - by rewrite lookup_insert_ne.
Qed.

Lemma reference_get_remove (g : reference.store) (p q : string) :
  reference.get q (reference.remove p g) =
  if decide (p = q) then None else reference.get q g.
Proof.
  induction g as [|[k d] g IH]; cbn; [by case_decide|].
  destruct (String.eqb_spec k p) as [->|Hkp]; cbn.
  - rewrite IH. case_decide as Hpq; [done|].
    by destruct (String.eqb_spec p q).
  - rewrite IH. destruct (String.eqb_spec k q) as [->|Hkq]; [|done].
    by rewrite decide_False by congruence.
Qed.

Lemma reference_get_put (g : reference.store) (p q : string) d :
  reference.get q (reference.put p d g) =
  if decide (p = q) then Some d else reference.get q g.
Proof.
  unfold reference.put. cbn. rewrite reference_get_remove.
  destruct (String.eqb_spec p q); by case_decide.
Qed.

Lemma reference_honours : contract reference.model.
Proof.
  split; cbn.
  - intros c w p Hp. rewrite !reference_lookup.
    destruct c; cbn in *; repeat case_match; cbn;
      rewrite ?reference_get_remove, ?reference_get_put;
      try case_decide; try congruence.
    all: match goal with
         | |- context [String.eqb ?a ?b] => destruct (String.eqb_spec a b)
         end; congruence.
  - intros p w b w' [= <- <-]. rewrite reference_lookup.
    destruct (reference.get p w); symmetry.
    + by apply bool_decide_eq_true.
    + apply bool_decide_eq_false. by intros [].
  - intros p ty w u w' H. rewrite reference_lookup.
    destruct (reference.get p w); simplify_eq.
    rewrite reference_get_remove. by case_decide.
  - intros inp out dist side ends dopt dfield meth w u w' H.
    rewrite !reference_lookup.
    destruct (reference.get inp w) as [d|] eqn:Hd; [|done].
    destruct (reference.miles dist); simplify_eq.
    exists d. rewrite reference_get_put. by case_decide.
  - intros inp clip out tol w u w' H. rewrite !reference_lookup.
    destruct (reference.get inp w) as [a|] eqn:Ha; [|done].
    destruct (reference.get clip w) as [b|] eqn:Hb; simplify_eq.
    exists a, b. rewrite reference_get_put. by case_decide.
  - intros a b tol x H. exact H.
Qed.

Lemma locking_honours : contract reference.locking_model.
Proof.
  pose proof reference_honours as [Hfr Hex Hdel Hbuf Hclip Hin].
  split.
  - intros c [g locks] p Hp. specialize (Hfr c g p Hp).
    destruct c; cbn -[reference.handle reference.is_locked] in *; try done.
    by destruct (reference.is_locked _ _).
  - intros p [g locks] b w' H. apply (f_equal fst) in H.
    apply (Hex p g b (reference.handle (arcpy.Exists p) g).2).
    by apply injective_projections.
  - intros p ty [g locks] u w' H.
    cbn -[reference.handle reference.is_locked] in H.
    destruct (reference.is_locked _ _); [done|].
    pose proof (f_equal fst H) as H1. apply (f_equal snd) in H.
    cbn -[reference.handle] in H1, H. subst w'.
    apply (Hdel p ty g u). by apply injective_projections.
  - intros inp out dist side ends dopt dfield meth [g locks] u w' H.
    pose proof (f_equal fst H) as H1. apply (f_equal snd) in H.
    cbn -[reference.handle] in H1, H. subst w'.
    apply (Hbuf inp out dist side ends dopt dfield meth g u).
    by apply injective_projections.
  - intros inp clip out tol [g locks] u w' H.
    pose proof (f_equal fst H) as H1. apply (f_equal snd) in H.
    cbn -[reference.handle] in H1, H. subst w'.
    apply (Hclip inp clip out tol g u). by apply injective_projections.
  - exact Hin.
Qed.

(** ** Runs of the reference library *)

(** With both outputs left over from an earlier run. *)
Example run_over_stale_outputs :
  calls (run reference.lib (script ["2"]) reference.stale) =
  [ arcpy.Exists major_roads_Buffer;
    arcpy.Delete_management major_roads_Buffer "FeatureClass";
    arcpy.Exists tracts_Clip;
    arcpy.Delete_management tracts_Clip "FeatureClass";
    arcpy.Buffer_analysis major_roads major_roads_Buffer "2 Miles"
      "FULL" "ROUND" "ALL" "" "PLANAR";
    arcpy.Clip_analysis tracts major_roads_Buffer tracts_Clip "" ].
Proof. vm_compute. reflexivity. Qed.

Example run_leaves_clip :
  reference.get tracts_Clip (final (run reference.lib (script ["2"]) reference.stale)) =
  Some (reference.Clipped (reference.Stored [1; 2; 3; 9]%Z)
          (reference.Buffered (reference.Stored [4]%Z) "2 Miles"
             "FULL" "ROUND" "ALL" "" "PLANAR") "").
Proof. vm_compute. reflexivity. Qed.

(** Without a parameter the distance is [" Miles"], which the library
    rejects. *)
Example run_without_parameter :
  events (run reference.lib (script []) reference.fresh) =
  [ returned (arcpy.Exists major_roads_Buffer) false;
    returned (arcpy.Exists tracts_Clip) false;
    raised (arcpy.Buffer_analysis major_roads major_roads_Buffer " Miles"
              "FULL" "ROUND" "ALL" "" "PLANAR")
      "ERROR 000622: invalid linear unit" ].
Proof. vm_compute. reflexivity. Qed.

(** A second run in a session that has locked [tracts_Clip]. *)
Example rerun_under_lock :
  let r1 := run reference.locking (script ["2"]) (reference.fresh, []) in
  let r2 := run reference.locking (script ["2"]) (final r1) in
  outcome r1 = Returned tt ∧
  outcome r2 = Raised "ERROR 000464: cannot get exclusive schema lock" ∧
  reference.get major_roads_Buffer (final r2).1 = None.
Proof. vm_compute. done. Qed.

(** ** Consequences of the contract, call by call *)

Section facts.
Context {L : library} (M : store_model L) (HC : contract M).

Lemma frame_eq c w r w' p :
  handle L c w = (r, w') → target c ≠ Some p → gdb M w' !! p = gdb M w !! p.
Proof. intros H Hp. rewrite <- (frame M HC c w p Hp). by rewrite H. Qed.

Lemma Exists_true p w w' :
  handle L (arcpy.Exists p) w = (Returned true, w') → is_Some (gdb M w !! p).
Proof.
  intros H. apply (Exists_answer M HC) in H. symmetry in H.
  by apply bool_decide_eq_true in H.
Qed.

Lemma Exists_false p w w' :
  handle L (arcpy.Exists p) w = (Returned false, w') → gdb M w !! p = None.
Proof.
  intros H. apply (Exists_answer M HC) in H. symmetry in H.
  apply bool_decide_eq_false in H. by apply eq_None_not_Some.
Qed.
End facts.

(** Records what the contract says about one call on identifier [p]. *)
Ltac learn_frame HC H p :=
  lazymatch type of H with
  | handle _ ?c ?w = (?r, ?w') =>
      try (let F := fresh "Hframe" in
           pose proof (frame_eq _ HC c w r w' p H ltac:(distinct)) as F)
  end.

(** Replaces every call in the context by what the contract says of it,
    for the four identifiers of the script and for [p]. *)
Ltac learn_with HC p :=
  repeat match goal with
  | H : handle _ _ _ = _ |- _ =>
      learn_frame HC H tracts; learn_frame HC H major_roads;
      learn_frame HC H major_roads_Buffer; learn_frame HC H tracts_Clip;
      learn_frame HC H p;
      try (pose proof (Exists_true _ HC _ _ _ H));
      try (pose proof (Exists_false _ HC _ _ _ H));
      try (pose proof (Delete_removes _ HC _ _ _ _ _ H));
      try (destruct (Buffer_creates _ HC _ _ _ _ _ _ _ _ _ _ _ H) as (? & ? & ?));
      try (destruct (Clip_creates _ HC _ _ _ _ _ _ _ H) as (? & ? & ? & ? & ?));
      clear H
  end.

Ltac learn HC := learn_with HC tracts.

(** ** The store after a run that completes *)

Section stored.
Context {L : library} (M : store_model L) (HC : contract M).

Lemma completed_store params (w : world L) :
  let r := run L (script params) w in
  outcome r = Returned tt →
  ∃ t rd,
    gdb M w !! tracts = Some t ∧ gdb M w !! major_roads = Some rd ∧
    gdb M (final r) !! major_roads_Buffer = Some (buffered M params rd) ∧
    gdb M (final r) !! tracts_Clip =
      Some (clip_geom M t (buffered M params rd) "").
Proof.
  run_script; intros Hdone; try discriminate Hdone; clear Hdone.
  all: learn HC.
  all: match goal with
       | Ht : _ !! tracts = Some ?t, Hr : _ !! major_roads = Some ?rd |- _ =>
           exists t, rd
       end.
  all: unfold buffered; split_and!; congruence.
Qed.

Lemma completed_frame params (w : world L) p :
  let r := run L (script params) w in
  outcome r = Returned tt →
  p ≠ major_roads_Buffer → p ≠ tracts_Clip →
  gdb M (final r) !! p = gdb M w !! p.
Proof.
  run_script; intros Hdone HB HC'; try discriminate Hdone; clear Hdone.
  all: learn_with HC p; congruence.
Qed.
End stored.

(** ** The claims *)

(** C1, as stated, fails: when a call raises the run ends there.  In the
    reference library the distance expression [x Miles] is no linear
    unit, so the buffer call raises and the clip is never issued. *)
Lemma stops_at_failing_buffer :
  ¬ performs_whole_sequence reference.lib ["x"] reference.fresh.
Proof.
  intros (b1 & b2 & H). apply (f_equal length) in H.
  destruct b1, b2; vm_compute in H; discriminate H.
Qed.

(** C1, amended.  The script issues the removal of [major_roads_Buffer]
    if it exists, the removal of [tracts_Clip] if it exists, the buffer
    of [major_roads] into [major_roads_Buffer] and the clip of [tracts]
    by [major_roads_Buffer] into [tracts_Clip], in this order and nothing
    else: a run in which no call raises has issued exactly this sequence,
    and a run in which one does has issued it up to that call. *)
Theorem script_call_sequence (L : library) (params : list string) (w : world L) :
  let r := run L (script params) w in
  ∃ b1 b2,
    (outcome r = Returned tt ∧ events r = sequence params b1 b2) ∨
    (∃ done c a rest e,
        events r = done ++ [raised c e] ∧
        sequence params b1 b2 = done ++ returned c a :: rest ∧
        outcome r = Raised e).
Proof.
  run_script; unfold events; cbn.
  all: first [ exists true, true; shape | exists true, false; shape
             | exists false, true; shape | exists false, false; shape ].
Qed.

(** C2.  Under the contract of the library, after a run that completes
    [tracts_Clip] holds the clip of [tracts] by the buffer of
    [major_roads] at the supplied distance, so whatever it covers lies in
    [tracts] and in that buffer. *)
Theorem tracts_Clip_is_clip_of_buffer {L : library} (M : store_model L)
    (params : list string) (w : world L) :
  contract M →
  let r := run L (script params) w in
  outcome r = Returned tt →
  ∃ t rd,
    gdb M w !! tracts = Some t ∧ gdb M w !! major_roads = Some rd ∧
    let buffer :=
      buffer_geom M rd (arcpy.GetParameterAsText params 0 +:+ " Miles")
        "FULL" "ROUND" "ALL" "" "PLANAR" in
    gdb M (final r) !! tracts_Clip = Some (clip_geom M t buffer "") ∧
    ∀ c x, gdb M (final r) !! tracts_Clip = Some c →
           covers M c x → covers M t x ∧ covers M buffer x.
Proof.
  intros HC r Hdone.
  destruct (completed_store M HC params w Hdone) as (t & rd & Ht & Hrd & _ & Hclip).
  exists t, rd. do 2 (split; [done|]). intros buffer. split; [exact Hclip|].
  intros c x Hc Hx. fold r in Hclip. rewrite Hclip in Hc. injection Hc as <-.
  by apply (clip_within M HC) in Hx.
Qed.

Lemma tracts_Clip_is_clip_of_buffer_witness :
  let r := run reference.lib (script ["2"]) reference.stale in
  contract reference.model ∧ outcome r = Returned tt ∧
  ∃ t rd,
    gdb reference.model reference.stale !! tracts = Some t ∧
    gdb reference.model reference.stale !! major_roads = Some rd ∧
    let buffer := reference.Buffered rd "2 Miles" "FULL" "ROUND" "ALL" "" "PLANAR" in
    gdb reference.model (final r) !! tracts_Clip = Some (reference.Clipped t buffer "") ∧
    ∀ c x, gdb reference.model (final r) !! tracts_Clip = Some c →
           reference.covers c x → reference.covers t x ∧ reference.covers buffer x.
Proof.
  split; [exact reference_honours|]. split; [vm_compute; reflexivity|].
  apply (tracts_Clip_is_clip_of_buffer reference.model ["2"] reference.stale).
  - exact reference_honours.
  - vm_compute; reflexivity.
Defined.

(** C3.  Under the contract of the library, whenever the script invokes
    an operation that creates a dataset (the buffer into
    [major_roads_Buffer], the clip into [tracts_Clip]), that dataset is
    absent from the store the operation is invoked in, whether or not it
    existed before the run. *)
Theorem outputs_absent_before_creation {L : library} (M : store_model L)
    (params : list string) (w : world L) :
  contract M →
  ∀ w' ev out,
    (w', ev) ∈ trace (run L (script params) w) →
    creates (issued ev) = Some out →
    gdb M w' !! out = None.
Proof.
  intros HC w' ev out. run_script; intros Hin Hout.
  all: set_unfold in Hin; destruct_or?; simplify_eq; try done.
  all: cbn in Hout; simplify_eq; learn HC; congruence.
Qed.

Lemma outputs_absent_before_creation_witness :
  let r := run reference.lib (script ["2"]) reference.stale in
  let ev : event string := returned (buffer_call ["2"]) tt in
  contract reference.model ∧
  reference.get major_roads_Buffer reference.stale = Some (reference.Stored [0%Z]) ∧
  (reference.fresh, ev) ∈ trace r ∧
  creates (issued ev) = Some major_roads_Buffer ∧
  gdb reference.model reference.fresh !! major_roads_Buffer = None.
Proof.
  intros r ev.
  assert (Hin : (reference.fresh, ev) ∈ trace r)
    by (apply list_elem_of_lookup; exists 4; vm_compute; reflexivity).
  split; [exact reference_honours|]. split; [reflexivity|].
  split; [exact Hin|]. split; [reflexivity|].
  exact (outputs_absent_before_creation reference.model ["2"] reference.stale
           reference_honours reference.fresh ev major_roads_Buffer Hin eq_refl).
Defined.

(** C4.  Whatever the run-time parameter, the buffer operation is invoked
    with [major_roads] as input, [major_roads_Buffer] as output, the
    parameter followed by [" Miles"] as distance, full side, round ends
    and the planar method: every buffer call of every run is this call,
    and it is issued once unless an existence check or a delete before it
    raised and ended the run. *)
Theorem buffer_call_arguments (L : library) (params : list string) (w : world L) :
  let inputdata := arcpy.GetParameterAsText params 0 in
  let r := run L (script params) w in
  let buffer :=
    arcpy.Buffer_analysis major_roads major_roads_Buffer
      (inputdata +:+ " Miles") "FULL" "ROUND" "ALL" "" "PLANAR" in
  (∀ c, c ∈ calls r → is_buffer c → c = buffer) ∧
  (filter (λ c, is_buffer c) (calls r) = [buffer] ∨
   ∃ c e, last (events r) = Some (raised c e) ∧ creates c = None).
Proof.
  run_script; unfold calls, events; cbn.
  all: split;
    [ intros c Hc Hb; set_unfold in Hc; destruct_or?; by subst
    | first [ left; reflexivity | right; eexists _, _; split; reflexivity ] ].
Qed.

Lemma buffer_call_arguments_witness :
  let r := run reference.lib (script ["2"]) reference.stale in
  let c := arcpy.Buffer_analysis major_roads major_roads_Buffer "2 Miles"
             "FULL" "ROUND" "ALL" "" "PLANAR" in
  c ∈ calls r ∧ is_buffer c ∧
  c = arcpy.Buffer_analysis major_roads major_roads_Buffer
        (arcpy.GetParameterAsText ["2"] 0 +:+ " Miles")
        "FULL" "ROUND" "ALL" "" "PLANAR".
Proof.
  intros r c.
  assert (Hc : c ∈ calls r)
    by (apply list_elem_of_lookup; exists 4; vm_compute; reflexivity).
  split; [exact Hc|]. split; [exact I|].
  exact (proj1 (buffer_call_arguments reference.lib ["2"] reference.stale) c Hc I).
Defined.

(** C5, as stated, fails: the second run can be cut short after it has
    deleted an output of the first.  In a session of the reference
    library that keeps a lock on what a clip has written, the second run
    deletes [major_roads_Buffer], fails to delete [tracts_Clip] and
    leaves the store without [major_roads_Buffer]. *)
Lemma locked_rerun_loses_buffer :
  contract reference.locking_model ∧
  ¬ rerun_equivalent reference.locking_model ["2"] (reference.fresh, []).
Proof.
  split; [exact locking_honours|]. intros [HB _].
  cbn [gdb reference.locking_model] in HB. rewrite !reference_lookup in HB.
  vm_compute in HB. discriminate HB.
Qed.

(** C5, amended.  Under the contract of the library (its operations
    being functions of their arguments and the store), when the script is
    run twice in succession with the same parameter and no call raises in
    either run, [major_roads_Buffer] and [tracts_Clip] are the same after
    the second run as after the first; so is the whole store. *)
Theorem rerun_same_outputs {L : library} (M : store_model L)
    (params : list string) (w : world L) :
  contract M →
  let r1 := run L (script params) w in
  let r2 := run L (script params) (final r1) in
  outcome r1 = Returned tt → outcome r2 = Returned tt →
  gdb M (final r2) !! major_roads_Buffer = gdb M (final r1) !! major_roads_Buffer ∧
  gdb M (final r2) !! tracts_Clip = gdb M (final r1) !! tracts_Clip ∧
  gdb M (final r2) = gdb M (final r1).
Proof.
  intros HC r1 r2 H1 H2.
  destruct (completed_store M HC params w H1) as (t & rd & Ht & Hrd & HB1 & HC1).
  destruct (completed_store M HC params (final r1) H2)
    as (t' & rd' & Ht' & Hrd' & HB2 & HC2).
  subst r1 r2.
  assert (t' = t) as ->.
  { rewrite (completed_frame M HC params w tracts H1) in Ht' by distinct.
    congruence. }
  assert (rd' = rd) as ->.
  { rewrite (completed_frame M HC params w major_roads H1) in Hrd' by distinct.
    congruence. }
  match goal with
  | |- ?m2 !! _ = ?m1 !! _ ∧ _ => assert (∀ p : string, m2 !! p = m1 !! p) as Hall
  end.
  { intros p.
    destruct (decide (p = major_roads_Buffer)) as [->|]; [congruence|].
    destruct (decide (p = tracts_Clip)) as [->|]; [congruence|].
    by apply (completed_frame M HC params _ p H2). }
  split_and!; [apply Hall..|]. by apply map_eq.
Qed.

Lemma rerun_same_outputs_witness :
  let r1 := run reference.lib (script ["2"]) reference.stale in
  let r2 := run reference.lib (script ["2"]) (final r1) in
  contract reference.model ∧
  outcome r1 = Returned tt ∧ outcome r2 = Returned tt ∧
  gdb reference.model (final r2) !! major_roads_Buffer =
    gdb reference.model (final r1) !! major_roads_Buffer ∧
  gdb reference.model (final r2) !! tracts_Clip =
    gdb reference.model (final r1) !! tracts_Clip ∧
  gdb reference.model (final r2) = gdb reference.model (final r1).
Proof.
  intros r1 r2. split; [exact reference_honours|].
  assert (H1 : outcome r1 = Returned tt) by (vm_compute; reflexivity).
  assert (H2 : outcome r2 = Returned tt) by (vm_compute; reflexivity).
  split; [exact H1|]. split; [exact H2|].
  exact (rerun_same_outputs reference.model ["2"] reference.stale
           reference_honours H1 H2).
Defined.

(** C6.  When an operation raises, it is the last one the script issues
    and the run ends with that very exception; and a run only ends with
    an exception that its last operation raised. *)
Theorem failure_propagates (L : library) (params : list string) (w : world L) :
  let r := run L (script params) w in
  (∀ i ev e,
     events r !! i = Some ev → failure ev = Some e →
     length (events r) = S i ∧ outcome r = Raised e) ∧
  (∀ e, outcome r = Raised e → ∃ c, last (events r) = Some (raised c e)).
Proof.
  run_script; unfold events; cbn.
  all: split;
    [ intros i ev e' Hi Hf;
      destruct i as [|[|[|[|[|[|]]]]]]; simplify_eq/=;
      unfold failure in Hf; cbn in Hf; by simplify_eq
    | intros e' He; simplify_eq; eexists; reflexivity ].
Qed.

Lemma failure_propagates_witness :
  let r := run reference.lib (script []) reference.fresh in
  let e := "ERROR 000622: invalid linear unit" in
  let ev : event string := raised (buffer_call []) e in
  events r !! 2 = Some ev ∧ failure ev = Some e ∧
  length (events r) = 3 ∧ outcome r = Raised e.
Proof.
  intros r e ev.
  assert (Hev : events r !! 2 = Some ev) by (vm_compute; reflexivity).
  split; [exact Hev|]. split; [reflexivity|].
  exact (proj1 (failure_propagates reference.lib [] reference.fresh)
           2 ev e Hev eq_refl).
Defined.

(** C7.  The only identifiers the script deletes or creates are
    [major_roads_Buffer] and [tracts_Clip], never [tracts] or
    [major_roads]; so, under the contract of the library, the two input
    feature classes are in every world of the run what they were at its
    start. *)
Theorem inputs_untouched (L : library) (params : list string) (w : world L) :
  let r := run L (script params) w in
  (∀ c p, c ∈ calls r → target c = Some p →
     (p = major_roads_Buffer ∨ p = tracts_Clip) ∧ p ≠ tracts ∧ p ≠ major_roads) ∧
  (∀ M : store_model L, contract M →
     ∀ w', w' ∈ worlds r →
       gdb M w' !! tracts = gdb M w !! tracts ∧
       gdb M w' !! major_roads = gdb M w !! major_roads).
Proof.
  run_script; unfold calls, events, worlds; cbn.
  all: split;
    [ intros c p Hc Hp; set_unfold in Hc; destruct_or?; simplify_eq/=;
      (split; [auto|split; distinct])
    | intros M HC w' Hw'; set_unfold in Hw'; destruct_or?; simplify_eq/=;
      learn HC; split; congruence ].
Qed.

Lemma inputs_untouched_witness :
  let r := run reference.lib (script ["2"]) reference.stale in
  (arcpy.Delete_management tracts_Clip "FeatureClass" ∈ calls r ∧
   target (arcpy.Delete_management tracts_Clip "FeatureClass") = Some tracts_Clip ∧
   (tracts_Clip = major_roads_Buffer ∨ tracts_Clip = tracts_Clip) ∧
   tracts_Clip ≠ tracts ∧ tracts_Clip ≠ major_roads) ∧
  (contract reference.model ∧ final r ∈ worlds r ∧
   gdb reference.model (final r) !! tracts =
     gdb reference.model reference.stale !! tracts ∧
   gdb reference.model (final r) !! major_roads =
     gdb reference.model reference.stale !! major_roads).
Proof.
  intros r.
  assert (Hc : arcpy.Delete_management tracts_Clip "FeatureClass" ∈ calls r)
    by (apply list_elem_of_lookup; exists 3; vm_compute; reflexivity).
  assert (Hw : final r ∈ worlds r)
    by (apply list_elem_of_lookup; exists 6; vm_compute; reflexivity).
  split.
  - split; [exact Hc|]. split; [reflexivity|].
    exact (proj1 (inputs_untouched reference.lib ["2"] reference.stale)
             _ tracts_Clip Hc eq_refl).
  - split; [exact reference_honours|]. split; [exact Hw|].
    exact (proj2 (inputs_untouched reference.lib ["2"] reference.stale)
             reference.model reference_honours (final r) Hw).
Defined.

(** C8, as stated, fails: in the reference library a distance expression
    that is no linear unit makes the buffer call raise, so the run with
    parameter [x] never reads [tracts] nor issues the clip, which the run
    with parameter [1] on the same store does. *)
Lemma parameter_decides_clip :
  ¬ parameter_confined reference.lib reference.fresh ["x"] ["1"].
Proof.
  intros [Hsame _]. destruct (Hsame tracts) as [_ Hback].
  assert (tracts ∈ touched (run reference.lib (script ["1"]) reference.fresh)) as H2
    by (apply list_elem_of_lookup; exists 4; vm_compute; reflexivity).
  apply Hback, list_elem_of_In in H2. vm_compute in H2.
  intuition discriminate.
Qed.

(** C8, amended.  For two runs from the same store with different
    parameters, every identifier a call names is one of the four fixed
    ones and, the distance expression apart, the runs issue the same
    calls for as long as both go on: one sequence of calls is a prefix of
    the other.  The sequences, and the identifiers touched, are the same
    whenever the buffer call returns in both runs or in neither. *)
Theorem parameter_only_in_distance (L : library) (params1 params2 : list string)
    (w : world L) :
  let r1 := run L (script params1) w in
  let r2 := run L (script params2) w in
  let c1 := erase_distance <$> calls r1 in
  let c2 := erase_distance <$> calls r2 in
  (c1 `prefix_of` c2 ∨ c2 `prefix_of` c1) ∧
  (buffer_returned r1 = buffer_returned r2 →
     c1 = c2 ∧ ∀ p, p ∈ touched r1 ↔ p ∈ touched r2) ∧
  (∀ p, p ∈ touched r1 ++ touched r2 →
        p ∈ [tracts; major_roads; major_roads_Buffer; tracts_Clip]).
Proof.
  run_script; unfold calls, events, touched, buffer_returned; cbn.
  all: split; [first [ left; by eexists | right; by eexists ]|].
  all: split; [intros Hb; first [discriminate Hb | done]|].
  all: intros p Hp; set_unfold; destruct_or?; subst; auto.
Qed.

Lemma parameter_only_in_distance_witness :
  let r1 := run reference.lib (script ["1"]) reference.fresh in
  let r2 := run reference.lib (script ["2"]) reference.fresh in
  buffer_returned r1 = buffer_returned r2 ∧
  erase_distance <$> calls r1 = erase_distance <$> calls r2 ∧
  ∀ p, p ∈ touched r1 ↔ p ∈ touched r2.
Proof.
  intros r1 r2.
  assert (Hb : buffer_returned r1 = buffer_returned r2) by (vm_compute; reflexivity).
  split; [exact Hb|].
  exact (proj1 (proj2 (parameter_only_in_distance reference.lib ["1"] ["2"]
                         reference.fresh)) Hb).
Defined.

(** C9.  The script does not look at the parameter: whatever the string,
    the empty one included, the buffer operation is invoked, once, with
    the parameter followed by [" Miles"] as distance, hence with
    [" Miles"] alone for the empty parameter, unless an existence check
    or a delete before it raised and ended the run; it is invoked in
    every run in which no call raises, and for a parameter exactly when
    it is for the empty one; and a run only ends with an exception that
    the library raised. *)
Theorem no_parameter_validation (L : library) (params : list string) (w : world L) :
  let inputdata := arcpy.GetParameterAsText params 0 in
  let r := run L (script params) w in
  let r0 := run L (script [""]) w in
  (buffer_distances r = [inputdata +:+ " Miles"] ∨
   ∃ c e, last (events r) = Some (raised c e) ∧ creates c = None) ∧
  (buffer_distances r0 = [" Miles"] ∨
   ∃ c e, last (events r0) = Some (raised c e) ∧ creates c = None) ∧
  (outcome r = Returned tt → buffer_distances r = [inputdata +:+ " Miles"]) ∧
  (∀ d, d ∈ buffer_distances r → d = inputdata +:+ " Miles") ∧
  (∀ d, d ∈ buffer_distances r0 → d = " Miles") ∧
  length (buffer_distances r) = length (buffer_distances r0) ∧
  (∀ e, outcome r = Raised e → ∃ c, last (events r) = Some (raised c e)).
Proof.
  run_script; unfold buffer_distances, calls, events; cbn.
  all: split;
    [first [ left; reflexivity | right; eexists _, _; split; reflexivity ]|].
  all: split;
    [first [ left; reflexivity | right; eexists _, _; split; reflexivity ]|].
  all: split; [intros Hdone; first [reflexivity | discriminate Hdone]|].
  all: split; [intros d Hd; set_unfold; destruct_or?; by subst|].
  all: split; [intros d Hd; set_unfold; destruct_or?; by subst|].
  all: split; [reflexivity|].
  all: intros e' He; simplify_eq; eexists; reflexivity.
Qed.

Lemma no_parameter_validation_witness :
  let r := run reference.lib (script ["2"]) reference.fresh in
  let r0 := run reference.lib (script [""]) reference.fresh in
  let e := "ERROR 000622: invalid linear unit" in
  (outcome r = Returned tt ∧ buffer_distances r = ["2 Miles"]) ∧
  buffer_distances r0 = [" Miles"] ∧
  ("2 Miles" ∈ buffer_distances r ∧ "2 Miles" = "2" +:+ " Miles") ∧
  (" Miles" ∈ buffer_distances r0 ∧ " Miles" = " Miles") ∧
  (outcome r0 = Raised e ∧ ∃ c, last (events r0) = Some (raised c e)).
Proof.
  intros r r0 e.
  pose proof (no_parameter_validation reference.lib ["2"] reference.fresh)
    as (_ & Hempty & Hcompleted & Hdist & Hdist0 & _).
  pose proof (no_parameter_validation reference.lib [""] reference.fresh)
    as (_ & _ & _ & _ & _ & _ & Hraised).
  assert (Hdone : outcome r = Returned tt) by (vm_compute; reflexivity).
  assert (Hd : "2 Miles" ∈ buffer_distances r)
    by (apply list_elem_of_lookup; exists 0; vm_compute; reflexivity).
  assert (Hd0 : " Miles" ∈ buffer_distances r0)
    by (apply list_elem_of_lookup; exists 0; vm_compute; reflexivity).
  assert (He : outcome r0 = Raised e) by (vm_compute; reflexivity).
  split; [split; [exact Hdone|exact (Hcompleted Hdone)]|].
  split.
  { destruct Hempty as [H|(c & e' & Hlast & Hc)]; [exact H|].
    apply (f_equal (fmap (λ ev : event string, creates (issued ev)))) in Hlast.
    cbn in Hlast. rewrite Hc in Hlast. vm_compute in Hlast. discriminate Hlast. }
  split; [split; [exact Hd|exact (Hdist "2 Miles" Hd)]|].
  split; [split; [exact Hd0|exact (Hdist0 " Miles" Hd0)]|].
  split; [exact He|exact (Hraised e He)].
Defined.

(** C10.  Every delete the script issues comes right after an existence
    check of the same identifier that answered yes; so, under the
    contract of the library, the dataset is there when the delete is
    invoked. *)
Theorem delete_is_guarded (L : library) (params : list string) (w : world L) :
  let r := run L (script params) w in
  ∀ i w' ev p ty,
    trace r !! i = Some (w', ev) →
    issued ev = arcpy.Delete_management p ty →
    (∃ j wj, i = S j ∧ trace r !! j = Some (wj, returned (arcpy.Exists p) true)) ∧
    (∀ M : store_model L, contract M → is_Some (gdb M w' !! p)).
Proof.
  run_script; intros i w' ev p ty Hi Hev.
  all: destruct i as [|[|[|[|[|[|]]]]]]; simplify_eq/=.
  all: (split; [by eexists _, _|]); intros M HC; learn HC.
  all: match goal with
       | Hs : is_Some ?x |- is_Some ?y => replace y with x by congruence; exact Hs
       end.
Qed.

Lemma delete_is_guarded_witness :
  let r := run reference.lib (script ["2"]) reference.stale in
  let ev : event string :=
    returned (arcpy.Delete_management major_roads_Buffer "FeatureClass") tt in
  trace r !! 1 = Some (reference.stale, ev) ∧
  issued ev = arcpy.Delete_management major_roads_Buffer "FeatureClass" ∧
  (∃ j wj, 1 = S j ∧
     trace r !! j = Some (wj, returned (arcpy.Exists major_roads_Buffer) true)) ∧
  (∀ M : store_model reference.lib, contract M →
     is_Some (gdb M reference.stale !! major_roads_Buffer)).
Proof.
  intros r ev.
  assert (Hi : trace r !! 1 = Some (reference.stale, ev)) by (vm_compute; reflexivity).
  split; [exact Hi|]. split; [reflexivity|].
  exact (delete_is_guarded reference.lib ["2"] reference.stale
           1 reference.stale ev major_roads_Buffer "FeatureClass" Hi eq_refl).
Defined.

(** ** Further properties of the script *)

(** Proves a call to be among those of a run, once the run is laid out. *)
Ltac find_call :=
  solve [ repeat first [ apply list_elem_of_here | apply list_elem_of_further ] ].

(** X1.  Under the contract of the library, a run that completes leaves
    both outputs in the store: [major_roads_Buffer] holds the buffer of
    [major_roads], as it was at the start, at the supplied distance, and
    [tracts_Clip] exists. *)
Theorem completed_run_leaves_buffer {L : library} (M : store_model L)
    (params : list string) (w : world L) :
  contract M →
  let inputdata := arcpy.GetParameterAsText params 0 in
  let r := run L (script params) w in
  outcome r = Returned tt →
  ∃ rd,
    gdb M w !! major_roads = Some rd ∧
    gdb M (final r) !! major_roads_Buffer =
      Some (buffer_geom M rd (inputdata +:+ " Miles")
              "FULL" "ROUND" "ALL" "" "PLANAR") ∧
    is_Some (gdb M (final r) !! tracts_Clip).
Proof.
  intros HC inputdata r Hdone.
  destruct (completed_store M HC params w Hdone) as (t & rd & _ & Hrd & HB & HCl).
  exists rd. split_and!; [done|exact HB|]. fold r in HCl. by rewrite HCl.
Qed.

Lemma completed_run_leaves_buffer_witness :
  let r := run reference.lib (script ["2"]) reference.stale in
  contract reference.model ∧ outcome r = Returned tt ∧
  ∃ rd,
    gdb reference.model reference.stale !! major_roads = Some rd ∧
    gdb reference.model (final r) !! major_roads_Buffer =
      Some (reference.Buffered rd ("2" +:+ " Miles")
              "FULL" "ROUND" "ALL" "" "PLANAR") ∧
    is_Some (gdb reference.model (final r) !! tracts_Clip).
Proof.
  intros r. split; [exact reference_honours|].
  assert (Hdone : outcome r = Returned tt) by (vm_compute; reflexivity).
  split; [exact Hdone|].
  exact (completed_run_leaves_buffer reference.model ["2"] reference.stale
           reference_honours Hdone).
Defined.

(** X2.  The clip is only ever invoked as the clip of [tracts] by
    [major_roads_Buffer] into [tracts_Clip], and right after the buffer
    call of the same run has returned; so, under the contract of the
    library, the buffer it clips by is the one just computed from
    [major_roads], never one left over from an earlier run. *)
Theorem clip_reads_fresh_buffer (L : library) (params : list string) (w : world L) :
  let inputdata := arcpy.GetParameterAsText params 0 in
  let r := run L (script params) w in
  let buffer :=
    arcpy.Buffer_analysis major_roads major_roads_Buffer
      (inputdata +:+ " Miles") "FULL" "ROUND" "ALL" "" "PLANAR" in
  ∀ i w' ev,
    trace r !! i = Some (w', ev) → is_clip (issued ev) →
    issued ev = arcpy.Clip_analysis tracts major_roads_Buffer tracts_Clip "" ∧
    (∃ j wj, i = S j ∧ trace r !! j = Some (wj, returned buffer tt)) ∧
    (∀ M : store_model L, contract M →
       ∃ rd, gdb M w !! major_roads = Some rd ∧
             gdb M w' !! major_roads_Buffer =
               Some (buffer_geom M rd (inputdata +:+ " Miles")
                       "FULL" "ROUND" "ALL" "" "PLANAR")).
Proof.
  run_script; intros i w' ev Hi Hev.
  all: destruct i as [|[|[|[|[|[|]]]]]]; simplify_eq/=; try done.
  all: split; [done|]; (split; [by eexists _, _|]); intros M HC; learn HC.
  all: match goal with
       | Hr : _ !! major_roads = Some ?rd |- _ => exists rd
       end; split; congruence.
Qed.

Lemma clip_reads_fresh_buffer_witness :
  let r := run reference.lib (script ["2"]) reference.stale in
  let buffer :=
    arcpy.Buffer_analysis major_roads major_roads_Buffer
      ("2" +:+ " Miles") "FULL" "ROUND" "ALL" "" "PLANAR" in
  let w' : reference.store :=
    (major_roads_Buffer,
     reference.Buffered (reference.Stored [4%Z]) "2 Miles"
       "FULL" "ROUND" "ALL" "" "PLANAR") :: reference.fresh in
  let ev : event string := returned clip_call tt in
  trace r !! 5 = Some (w', ev) ∧ is_clip (issued ev) ∧
  issued ev = arcpy.Clip_analysis tracts major_roads_Buffer tracts_Clip "" ∧
  (∃ j wj, 5 = S j ∧ trace r !! j = Some (wj, returned buffer tt)) ∧
  (∀ M : store_model reference.lib, contract M →
     ∃ rd, gdb M reference.stale !! major_roads = Some rd ∧
           gdb M w' !! major_roads_Buffer =
             Some (buffer_geom M rd ("2" +:+ " Miles")
                     "FULL" "ROUND" "ALL" "" "PLANAR")).
Proof.
  intros r buffer w' ev.
  assert (Hi : trace r !! 5 = Some (w', ev)) by (vm_compute; reflexivity).
  split; [exact Hi|]. split; [exact I|].
  exact (clip_reads_fresh_buffer reference.lib ["2"] reference.stale 5 w' ev Hi I).
Defined.

(** X3.  Under the contract of the library, the script changes nothing
    but its two outputs: any other dataset of the geodatabase is, in
    every world of the run, what it was at the start, also when the run
    fails. *)
Theorem other_datasets_untouched {L : library} (M : store_model L)
    (params : list string) (w : world L) :
  contract M →
  ∀ p w', p ≠ major_roads_Buffer → p ≠ tracts_Clip →
    w' ∈ worlds (run L (script params) w) →
    gdb M w' !! p = gdb M w !! p.
Proof.
  intros HC p w' HB HCl. run_script; unfold worlds; cbn; intros Hw'.
  all: set_unfold in Hw'; destruct_or?; simplify_eq/=; learn_with HC p; congruence.
Qed.

Lemma other_datasets_untouched_witness :
  let parcels := "tabletesting.gdb/parcels" in
  let w : reference.store := (parcels, reference.Stored [5%Z]) :: reference.stale in
  let r := run reference.lib (script ["x"]) w in
  contract reference.model ∧
  parcels ≠ major_roads_Buffer ∧ parcels ≠ tracts_Clip ∧
  final r ∈ worlds r ∧
  gdb reference.model (final r) !! parcels = gdb reference.model w !! parcels.
Proof.
  intros parcels w r.
  assert (HB : parcels ≠ major_roads_Buffer) by (cbv; discriminate).
  assert (HCl : parcels ≠ tracts_Clip) by (cbv; discriminate).
  assert (Hw : final r ∈ worlds r)
    by (apply list_elem_of_lookup; exists 5; vm_compute; reflexivity).
  split; [exact reference_honours|]. split; [exact HB|]. split; [exact HCl|].
  split; [exact Hw|].
  exact (other_datasets_untouched reference.model ["x"] w reference_honours
           parcels (final r) HB HCl Hw).
Defined.

(** X4.  Under the contract of the library, when [major_roads] is missing
    from the geodatabase no run completes: the buffer call, if the run
    gets to it, does not return, and the clip is never invoked. *)
Theorem missing_major_roads {L : library} (M : store_model L)
    (params : list string) (w : world L) :
  contract M →
  gdb M w !! major_roads = None →
  let r := run L (script params) w in
  outcome r ≠ Returned tt ∧
  (∀ ev, ev ∈ events r → is_buffer (issued ev) → has_returned ev = false) ∧
  (∀ c, c ∈ calls r → ¬ is_clip c).
Proof.
  intros HC Hno. run_script; unfold calls, events; cbn.
  all: try (exfalso; learn HC; congruence).
  all: split; [done|]; split;
    [ intros ev Hev Hb; set_unfold in Hev; destruct_or?; by subst
    | intros c Hc Hcl; set_unfold in Hc; destruct_or?; by subst ].
Qed.

Lemma missing_major_roads_witness :
  let w : reference.store := [(tracts, reference.Stored [1; 2; 3; 9]%Z)] in
  let r := run reference.lib (script ["2"]) w in
  contract reference.model ∧
  gdb reference.model w !! major_roads = None ∧
  outcome r ≠ Returned tt ∧
  (∀ ev, ev ∈ events r → is_buffer (issued ev) → has_returned ev = false) ∧
  (∀ c, c ∈ calls r → ¬ is_clip c).
Proof.
  intros w r.
  assert (Hno : gdb reference.model w !! major_roads = None)
    by (cbn [gdb reference.model]; rewrite reference_lookup; reflexivity).
  split; [exact reference_honours|]. split; [exact Hno|].
  exact (missing_major_roads reference.model ["2"] w reference_honours Hno).
Defined.

(** X5.  Under the contract of the library, when [tracts] is missing from
    the geodatabase no run completes: the clip call, if the run gets to
    it, does not return. *)
Theorem missing_tracts {L : library} (M : store_model L)
    (params : list string) (w : world L) :
  contract M →
  gdb M w !! tracts = None →
  let r := run L (script params) w in
  outcome r ≠ Returned tt ∧
  (∀ ev, ev ∈ events r → is_clip (issued ev) → has_returned ev = false).
Proof.
  intros HC Hno. run_script; unfold calls, events; cbn.
  all: try (exfalso; learn HC; congruence).
  all: split; [done|];
    intros ev Hev Hb; set_unfold in Hev; destruct_or?; by subst.
Qed.

Lemma missing_tracts_witness :
  let w : reference.store := [(major_roads, reference.Stored [4%Z])] in
  let r := run reference.lib (script ["2"]) w in
  contract reference.model ∧
  gdb reference.model w !! tracts = None ∧
  outcome r ≠ Returned tt ∧
  (∀ ev, ev ∈ events r → is_clip (issued ev) → has_returned ev = false).
Proof.
  intros w r.
  assert (Hno : gdb reference.model w !! tracts = None)
    by (cbn [gdb reference.model]; rewrite reference_lookup; reflexivity).
  split; [exact reference_honours|]. split; [exact Hno|].
  exact (missing_tracts reference.model ["2"] w reference_honours Hno).
Defined.

(** X6.  Under the contract of the library, a run whose buffer call
    raises leaves the store without [tracts_Clip], whatever was there
    before: the old output has been deleted and nothing puts it back. *)
Theorem failed_buffer_loses_clip {L : library} (M : store_model L)
    (params : list string) (w : world L) :
  contract M →
  let r := run L (script params) w in
  ∀ ev, ev ∈ events r → is_buffer (issued ev) → has_returned ev = false →
    gdb M (final r) !! tracts_Clip = None.
Proof.
  intros HC. run_script; unfold events; cbn; intros ev Hev Hb Hr.
  all: set_unfold in Hev; destruct_or?; subst; try done.
  all: learn HC; congruence.
Qed.

Lemma failed_buffer_loses_clip_witness :
  let r := run reference.lib (script ["x"]) reference.stale in
  let ev : event string :=
    raised (buffer_call ["x"]) "ERROR 000622: invalid linear unit" in
  contract reference.model ∧
  reference.get tracts_Clip reference.stale = Some (reference.Stored [7%Z]) ∧
  ev ∈ events r ∧ is_buffer (issued ev) ∧ has_returned ev = false ∧
  gdb reference.model (final r) !! tracts_Clip = None.
Proof.
  intros r ev.
  assert (Hev : ev ∈ events r)
    by (apply list_elem_of_lookup; exists 4; vm_compute; reflexivity).
  split; [exact reference_honours|]. split; [reflexivity|].
  split; [exact Hev|]. split; [exact I|]. split; [reflexivity|].
  exact (failed_buffer_loses_clip reference.model ["x"] reference.stale
           reference_honours ev Hev I eq_refl).
Defined.

(** X7.  Under the contract of the library, a run whose clip call raises
    leaves the new [major_roads_Buffer] in the store: the buffer of
    [major_roads] at the supplied distance stays behind, nothing removes
    it. *)
Theorem failed_clip_leaves_buffer {L : library} (M : store_model L)
    (params : list string) (w : world L) :
  contract M →
  let inputdata := arcpy.GetParameterAsText params 0 in
  let r := run L (script params) w in
  ∀ ev, ev ∈ events r → is_clip (issued ev) → has_returned ev = false →
    ∃ rd, gdb M w !! major_roads = Some rd ∧
          gdb M (final r) !! major_roads_Buffer =
            Some (buffer_geom M rd (inputdata +:+ " Miles")
                    "FULL" "ROUND" "ALL" "" "PLANAR").
Proof.
  intros HC. run_script; unfold events; cbn; intros ev Hev Hb Hr.
  all: set_unfold in Hev; destruct_or?; subst; try done.
  all: learn HC.
  all: match goal with
       | Hrd : _ !! major_roads = Some ?rd |- _ => exists rd
       end; split; congruence.
Qed.

Lemma failed_clip_leaves_buffer_witness :
  let w : reference.store := [(major_roads, reference.Stored [4%Z])] in
  let r := run reference.lib (script ["2"]) w in
  let ev : event string :=
    raised clip_call "ERROR 000732: input features do not exist" in
  contract reference.model ∧
  ev ∈ events r ∧ is_clip (issued ev) ∧ has_returned ev = false ∧
  ∃ rd, gdb reference.model w !! major_roads = Some rd ∧
        gdb reference.model (final r) !! major_roads_Buffer =
          Some (reference.Buffered rd ("2" +:+ " Miles")
                  "FULL" "ROUND" "ALL" "" "PLANAR").
Proof.
  intros w r ev.
  assert (Hev : ev ∈ events r)
    by (apply list_elem_of_lookup; exists 3; vm_compute; reflexivity).
  split; [exact reference_honours|]. split; [exact Hev|].
  split; [exact I|]. split; [reflexivity|].
  exact (failed_clip_leaves_buffer reference.model ["2"] w
           reference_honours ev Hev I eq_refl).
Defined.

(** X8.  Under the contract of the library, the script deletes exactly
    the outputs it finds at the start: a dataset it deletes was in the
    store when the run began, and an output that was there when the run
    began has been deleted by the time the buffer is invoked. *)
Theorem deletes_exactly_stale_outputs {L : library} (M : store_model L)
    (params : list string) (w : world L) :
  contract M →
  let r := run L (script params) w in
  (∀ p ty, arcpy.Delete_management p ty ∈ calls r → is_Some (gdb M w !! p)) ∧
  (∀ p, p = major_roads_Buffer ∨ p = tracts_Clip →
        is_Some (gdb M w !! p) →
        (∃ c, c ∈ calls r ∧ is_buffer c) →
        arcpy.Delete_management p "FeatureClass" ∈ calls r).
Proof.
  intros HC. run_script; unfold calls, events; cbn.
  all: split;
    [ intros p ty Hc; set_unfold in Hc; destruct_or?; simplify_eq; learn HC;
      match goal with
      | Hs : is_Some ?x |- is_Some ?y => replace y with x by congruence; exact Hs
      end
    | intros p [->| ->] [x Hx] (c & Hc & Hb);
      first [ find_call
            | exfalso; set_unfold in Hc; destruct_or?; by subst
            | exfalso; learn HC; congruence ] ].
Qed.

Lemma deletes_exactly_stale_outputs_witness :
  let r := run reference.lib (script ["2"]) reference.stale in
  let del := arcpy.Delete_management tracts_Clip "FeatureClass" in
  contract reference.model ∧
  (del ∈ calls r ∧ is_Some (gdb reference.model reference.stale !! tracts_Clip)) ∧
  ((tracts_Clip = major_roads_Buffer ∨ tracts_Clip = tracts_Clip) ∧
   (∃ c, c ∈ calls r ∧ is_buffer c) ∧ del ∈ calls r).
Proof.
  intros r del.
  assert (Hdel : del ∈ calls r)
    by (apply list_elem_of_lookup; exists 3; vm_compute; reflexivity).
  assert (Hbuf : ∃ c, c ∈ calls r ∧ is_buffer c).
  { exists (buffer_call ["2"]). split; [|exact I].
    apply list_elem_of_lookup; exists 4; vm_compute; reflexivity. }
  pose proof (deletes_exactly_stale_outputs reference.model ["2"] reference.stale
                reference_honours) as [Hfound Hdeleted].
  split; [exact reference_honours|]. split.
  - split; [exact Hdel|]. exact (Hfound tracts_Clip "FeatureClass" Hdel).
  - split; [by right|]. split; [exact Hbuf|].
    exact (Hdeleted tracts_Clip (or_intror eq_refl)
             (Hfound tracts_Clip "FeatureClass" Hdel) Hbuf).
Defined.

(** X9.  Under the contract of the library, what an earlier run has left
    has no part in the result: running the script with one parameter and
    then with another leaves the store that running it with the second
    alone would have left, whenever these runs complete. *)
Theorem outputs_forget_earlier_runs {L : library} (M : store_model L)
    (params1 params2 : list string) (w : world L) :
  contract M →
  let r1 := run L (script params1) w in
  let r2 := run L (script params2) (final r1) in
  let r := run L (script params2) w in
  outcome r1 = Returned tt → outcome r2 = Returned tt → outcome r = Returned tt →
  gdb M (final r2) = gdb M (final r).
Proof.
  intros HC r1 r2 r H1 H2 H.
  destruct (completed_store M HC params2 (final r1) H2)
    as (t' & rd' & Ht' & Hrd' & HB2 & HC2).
  destruct (completed_store M HC params2 w H) as (t & rd & Ht & Hrd & HB & HCl).
  subst r1 r2 r.
  rewrite (completed_frame M HC params1 w tracts H1) in Ht' by distinct.
  rewrite (completed_frame M HC params1 w major_roads H1) in Hrd' by distinct.
  assert (t' = t) as -> by congruence. assert (rd' = rd) as -> by congruence.
  apply map_eq. intros p.
  destruct (decide (p = major_roads_Buffer)) as [->|]; [congruence|].
  destruct (decide (p = tracts_Clip)) as [->|]; [congruence|].
  rewrite (completed_frame M HC params2 _ p H2) by done.
  rewrite (completed_frame M HC params1 w p H1) by done.
  by rewrite (completed_frame M HC params2 w p H).
Qed.

Lemma outputs_forget_earlier_runs_witness :
  let r1 := run reference.lib (script ["1"]) reference.stale in
  let r2 := run reference.lib (script ["2"]) (final r1) in
  let r := run reference.lib (script ["2"]) reference.stale in
  contract reference.model ∧
  outcome r1 = Returned tt ∧ outcome r2 = Returned tt ∧ outcome r = Returned tt ∧
  gdb reference.model (final r2) = gdb reference.model (final r).
Proof.
  intros r1 r2 r.
  assert (H1 : outcome r1 = Returned tt) by (vm_compute; reflexivity).
  assert (H2 : outcome r2 = Returned tt) by (vm_compute; reflexivity).
  assert (H : outcome r = Returned tt) by (vm_compute; reflexivity).
  split; [exact reference_honours|].
  split; [exact H1|]. split; [exact H2|]. split; [exact H|].
  exact (outputs_forget_earlier_runs reference.model ["1"] ["2"] reference.stale
           reference_honours H1 H2 H).
Defined.
